(** * autobot: the GitHub reporter ([autobot/github.py])

    A shallow embedding of the class [GitHubAPI]: the predicate checks that
    are run over pull requests, issues and comments, and the assembly of
    their results into the nested report.  The objects of the platform
    client are records holding the data a fetch returns; the clock read by
    the time-based checks is the argument [now]. *)

From Stdlib Require Import ZArith List String Ascii Bool Lia.
Import ListNotations.

Local Open Scope string_scope.
Local Open Scope list_scope.

(** ** The Python primitives the class relies on *)

Module Py.

(** Exceptions the modelled code can raise. *)
Inductive exn : Type :=
| IndexError.

Inductive result (A : Type) : Type :=
| Ok (a : A)
| Raise (e : exn).
Arguments Ok {A} a.
Arguments Raise {A} e.

Definition bind {A B : Type} (c : result A) (k : A -> result B) : result B :=
  match c with
  | Ok a => k a
  | Raise e => Raise e
  end.

(** Truth value of a list: a list is true when it is not empty. *)
Definition list_truthy {A : Type} (l : list A) : bool :=
  match l with
  | [] => false
  | _ :: _ => true
  end.

(** Truth value of a [str]. *)
Definition str_truthy (s : string) : bool :=
  match s with
  | EmptyString => false
  | String _ _ => true
  end.

(** [for x in s] over a [str]: its characters, each a string of length one. *)
Fixpoint str_iter (s : string) : list string :=
  match s with
  | EmptyString => []
  | String c rest => String c EmptyString :: str_iter rest
  end.

(** [s[1:]]: slicing never raises, the empty string gives the empty string. *)
Definition slice_from_1 (s : string) : string :=
  match s with
  | EmptyString => EmptyString
  | String _ rest => rest
  end.

(** [x in l] for a list of [str]. *)
Definition str_in_list (x : string) (l : list string) : bool :=
  existsb (String.eqb x) l.

(** [sub in s] for two [str]: [sub] occurs in [s] as a substring. *)
Fixpoint str_contains (sub s : string) : bool :=
  prefix sub s ||
  match s with
  | EmptyString => false
  | String _ rest => str_contains sub rest
  end.

(** [l[-1]]: the last item, [IndexError] on the empty list. *)
Fixpoint last_item {A : Type} (l : list A) : result A :=
  match l with
  | [] => Raise IndexError
  | [x] => Ok x
  | _ :: rest => last_item rest
  end.

(** An aware [datetime] is its instant on the UTC time line, in
    microseconds; the difference of two is a [timedelta], again in
    microseconds.  [timedelta.days] is the normalised day count: the
    floor of the duration over one day. *)
Definition us_per_day : Z := 86400 * 1000000.

Definition timedelta_days (delta : Z) : Z := (delta / us_per_day)%Z.

End Py.

Notation "x <- c ;; k" := (Py.bind c (fun x => k))
  (at level 61, c at next level, right associativity).

(** ** The objects of the platform client (github3) *)

Record User : Type := {
  login : string;
  user_url : string
}.

Record Label : Type := {
  label_name : string;
  label_color : string;
  label_url : string
}.

Record Comment : Type := {
  comment_html_url : string;
  comment_created_at : Z;
  comment_user : User;
  comment_body : option string
}.

Record Issue : Type := {
  issue_number : Z;
  issue_html_url : string;
  issue_title : string;
  issue_created_at : Z;
  issue_body : option string;
  issue_state : string;
  issue_user : User;
  issue_labels : list Label;      (* issue.labels() *)
  issue_comments : list Comment   (* issue.comments() *)
}.

Record PullRequest : Type := {
  pr_number : Z;
  pr_html_url : string;
  pr_title : string;
  pr_created_at : Z;
  pr_updated_at : Z;
  pr_body : option string;
  pr_state : string;
  pr_user : User;
  pr_issue_url : option string;
  pr_mergeable : option bool;               (* pr.refresh().mergeable *)
  pr_requested_reviewers : list User;
  pr_issue : option Issue;                  (* pr.issue() *)
  pr_review_comments : list Comment;        (* pr.review_comments() *)
  pr_issue_comments : list Comment          (* pr.issue_comments() *)
}.

Record Repository : Type := {
  clone_url : string;
  repo_created_at : Z;
  description : option string;
  pull_requests : list PullRequest;   (* repo.pull_requests() *)
  issues : list Issue                 (* repo.issues() *)
}.

(** [check_mentions] is applied to pull requests, issues and comments alike:
    all it asks of its subject is a [body]. *)
Class HasBody (A : Type) : Type := body : A -> option string.

#[export] Instance Comment_HasBody : HasBody Comment := comment_body.
#[export] Instance Issue_HasBody : HasBody Issue := issue_body.
#[export] Instance PullRequest_HasBody : HasBody PullRequest := pr_body.

(** ** Action reports: a one-entry dictionary, label to target accounts *)

Record ActionReport : Type := {
  label : string;
  targets : list string
}.

(** ** The predicate checks *)

(** The list [[mention[1:] for mention in m.body]]. *)
Definition mention_candidates (b : string) : list string :=
  map Py.slice_from_1 (Py.str_iter b).

(** The lambda of [check_mentions]: [m.body and (login in [...])]. *)
Definition mentioned {A : Type} `{HasBody A} (m : A) (login : string) : bool :=
  match body m with
  | None => false
  | Some b => Py.str_truthy b && Py.str_in_list login (mention_candidates b)
  end.

Definition check_mentions {A : Type} `{HasBody A}
    (m : A) (maintainers : list string) : list ActionReport :=
  let mentions := filter (mentioned m) maintainers in
  if Py.list_truthy mentions
  then [ {| label := "You've been mentioned here!"; targets := mentions |} ]
  else [].

Definition check_mergeable (pr : PullRequest) (maintainers : list string)
    : list ActionReport :=
  match pr_mergeable pr with
  | Some true => [ {| label := "Merge this!"; targets := maintainers |} ]
  | _ => []
  end.

Definition check_review (pr : PullRequest) (maintainers : list string)
    : list ActionReport :=
  let requested_reviewers :=
    filter (fun l => Py.str_in_list l (map login (pr_requested_reviewers pr)))
           maintainers in
  if Py.list_truthy requested_reviewers
  then [ {| label := "Review this!"; targets := requested_reviewers |} ]
  else [].

Definition check_if_connected_with_issue (pr : PullRequest)
    (maintainers : list string) : list ActionReport :=
  match pr_issue pr with
  | None => [ {| label := "Resolve not connected with issue!";
                 targets := maintainers |} ]
  | Some _ => []
  end.

Definition check_close (now : Z) (pr : PullRequest) (maintainers : list string)
    : list ActionReport :=
  if (3 * 30 <=? Py.timedelta_days (now - pr_updated_at pr))%Z
  then [ {| label := "Close this!"; targets := maintainers |} ]
  else [].

Definition check_follow_up (now : Z) (pr : PullRequest)
    (maintainers : list string) : list ActionReport :=
  if Py.str_contains "WIP" (pr_title pr)
     && (1 * 30 <=? Py.timedelta_days (now - pr_updated_at pr))%Z
  then [ {| label := "Follow up on this!"; targets := maintainers |} ]
  else [].

Definition check_labels (issue : Issue) (maintainers : list string)
    : list ActionReport :=
  if Py.list_truthy
       (filter (fun l => String.eqb (label_name l) "RFC") (issue_labels issue))
  then [ {| label := "Skip this for now!"; targets := maintainers |} ]
  else [].

(** [comments and comments[-1].user.login not in maintainers]: the index is
    evaluated only when the list is true. *)
Definition check_comments (issue : Issue) (maintainers : list string)
    : Py.result (list ActionReport) :=
  let comments := issue_comments issue in
  cond <- (if Py.list_truthy comments
           then last <- Py.last_item comments ;;
                Py.Ok (negb (Py.str_in_list (login (comment_user last))
                                            maintainers))
           else Py.Ok false) ;;
  Py.Ok (if cond : bool
         then [ {| label := "Follow up on this!"; targets := maintainers |} ]
         else []).

(** The class-level lists of checks.  The pull-request checks that read the
    clock take the instant [now]; a check that cannot raise is lifted with
    [Py.Ok] where the list also holds one that can. *)
Definition comment_filters : list (Comment -> list string -> list ActionReport) :=
  [ check_mentions ].

Definition pr_filters (now : Z)
    : list (PullRequest -> list string -> list ActionReport) :=
  [ check_mergeable;
    check_review;
    check_if_connected_with_issue;
    check_mentions;
    check_close now;
    check_follow_up now ].

Definition issue_filters
    : list (Issue -> list string -> Py.result (list ActionReport)) :=
  [ (fun issue maintainers => Py.Ok (check_labels issue maintainers));
    check_comments;
    (fun issue maintainers => Py.Ok (check_mentions issue maintainers)) ].

(** ** Info extractors *)

Record UserInfo : Type := {
  ui_name : string;
  ui_url : string
}.

Record LabelInfo : Type := {
  li_name : string;
  li_color : string;
  li_url : string
}.

Record CommentInfo : Type := {
  ci_url : string;
  ci_creation_date : Z;
  ci_user : UserInfo
}.

Record PrInfo : Type := {
  pi_id : Z;
  pi_url : string;
  pi_title : string;
  pi_creation_date : Z;
  pi_description : option string;
  pi_state : string;
  pi_user : UserInfo;
  pi_related_issue : option string
}.

Record IssueInfo : Type := {
  ii_id : Z;
  ii_url : string;
  ii_title : string;
  ii_creation_date : Z;
  ii_description : option string;
  ii_state : string;
  ii_labels : list LabelInfo;
  ii_user : UserInfo
}.

Record RepoInfo : Type := {
  ri_url : string;
  ri_creation_date : Z;
  ri_description : option string
}.

Definition user_info (u : User) : UserInfo :=
  {| ui_name := login u; ui_url := user_url u |}.

Definition fetch_comment_info (comment : Comment) : CommentInfo :=
  {| ci_url := comment_html_url comment;
     ci_creation_date := comment_created_at comment;
     ci_user := user_info (comment_user comment) |}.

Definition fetch_pr_info (pr : PullRequest) : PrInfo :=
  {| pi_id := pr_number pr;
     pi_url := pr_html_url pr;
     pi_title := pr_title pr;
     pi_creation_date := pr_created_at pr;
     pi_description := pr_body pr;
     pi_state := pr_state pr;
     pi_user := user_info (pr_user pr);
     pi_related_issue := pr_issue_url pr |}.

Definition fetch_issue_info (issue : Issue) : IssueInfo :=
  {| ii_id := issue_number issue;
     ii_url := issue_html_url issue;
     ii_title := issue_title issue;
     ii_creation_date := issue_created_at issue;
     ii_description := issue_body issue;
     ii_state := issue_state issue;
     ii_labels := map (fun l => {| li_name := label_name l;
                                   li_color := label_color l;
                                   li_url := label_url l |})
                      (issue_labels issue);
     ii_user := user_info (issue_user issue) |}.

Definition fetch_repo_info (repo : Repository) : RepoInfo :=
  {| ri_url := clone_url repo;
     ri_creation_date := repo_created_at repo;
     ri_description := description repo |}.

(** ** The report tree

    Every level of the report is a list of dictionaries.  An entry is the
    info of its subject merged with the key ["actions"]; the info
    dictionaries have no key ["actions"], so the merge keeps both. *)

Record CommentEntry : Type := {
  ce_actions : list ActionReport;
  ce_info : CommentInfo
}.

Inductive PrItem : Type :=
| PrAction (a : ActionReport)
| ReviewComments (entries : list CommentEntry)   (* {"review_comments": [...]} *)
| IssueComments (entries : list CommentEntry).   (* {"issue_comments": [...]} *)

Record PrEntry : Type := {
  pe_actions : list PrItem;
  pe_info : PrInfo
}.

Inductive IssueItem : Type :=
| IssueAction (a : ActionReport)
| Comments (entries : list CommentEntry).        (* {"comments": [...]} *)

Record IssueEntry : Type := {
  ie_actions : list IssueItem;
  ie_info : IssueInfo
}.

Inductive RepoItem : Type :=
| Prs (entries : list PrEntry)                   (* {"prs": [...]} *)
| Issues (entries : list IssueEntry).            (* {"issues": [...]} *)

Record RepoEntry : Type := {
  re_actions : list RepoItem;
  re_info : RepoInfo
}.

Inductive ReportItem : Type :=
| Repos (entries : list RepoEntry).              (* {"repos": [...]} *)

(** ** Report assembly *)

Definition comment_report (comment : Comment) (maintainers : list string)
    : list ActionReport :=
  fold_left (fun res f => res ++ f comment maintainers) comment_filters [].

(** The loop over the comments of a subject, as [pr_report] and
    [issue_report] write it three times: a comment is appended when its
    report is true. *)
Definition comment_entries (comments : list Comment) (maintainers : list string)
    : list CommentEntry :=
  fold_left
    (fun acc comment =>
       let report := comment_report comment maintainers in
       if Py.list_truthy report
       then acc ++ [ {| ce_actions := report;
                        ce_info := fetch_comment_info comment |} ]
       else acc)
    comments [].

Definition pr_report (now : Z) (pr : PullRequest) (maintainers : list string)
    : list PrItem :=
  let res :=
    fold_left (fun res f => res ++ map PrAction (f pr maintainers))
              (pr_filters now) [] in
  let review_comments := comment_entries (pr_review_comments pr) maintainers in
  let res := if Py.list_truthy review_comments
             then res ++ [ ReviewComments review_comments ] else res in
  let issue_comments := comment_entries (pr_issue_comments pr) maintainers in
  let res := if Py.list_truthy issue_comments
             then res ++ [ IssueComments issue_comments ] else res in
  res.

(** The loop over [issue_filters]; a check that raises ends it. *)
Fixpoint run_issue_filters
    (fs : list (Issue -> list string -> Py.result (list ActionReport)))
    (issue : Issue) (maintainers : list string) (res : list IssueItem)
    : Py.result (list IssueItem) :=
  match fs with
  | [] => Py.Ok res
  | f :: fs' =>
      r <- f issue maintainers ;;
      run_issue_filters fs' issue maintainers (res ++ map IssueAction r)
  end.

Definition issue_report (issue : Issue) (maintainers : list string)
    : Py.result (list IssueItem) :=
  res <- run_issue_filters issue_filters issue maintainers [] ;;
  let comments := comment_entries (issue_comments issue) maintainers in
  Py.Ok (if Py.list_truthy comments then res ++ [ Comments comments ] else res).

Definition pr_entries (now : Z) (prs : list PullRequest)
    (maintainers : list string) : list PrEntry :=
  fold_left
    (fun acc pr =>
       if negb (String.eqb (pr_state pr) "open") then acc
       else
         let report := pr_report now pr maintainers in
         if Py.list_truthy report
         then acc ++ [ {| pe_actions := report; pe_info := fetch_pr_info pr |} ]
         else acc)
    prs [].

Fixpoint issue_entries (l : list Issue) (maintainers : list string)
    (acc : list IssueEntry) : Py.result (list IssueEntry) :=
  match l with
  | [] => Py.Ok acc
  | issue :: rest =>
      if negb (String.eqb (issue_state issue) "open")
      then issue_entries rest maintainers acc
      else
        report <- issue_report issue maintainers ;;
        issue_entries rest maintainers
          (if Py.list_truthy report
           then acc ++ [ {| ie_actions := report;
                            ie_info := fetch_issue_info issue |} ]
           else acc)
  end.

Definition repo_report (now : Z) (repo : Repository) (maintainers : list string)
    : Py.result (list RepoItem) :=
  let res := [] in
  let prs := pr_entries now (pull_requests repo) maintainers in
  let res := if Py.list_truthy prs then res ++ [ Prs prs ] else res in
  issues <- issue_entries (issues repo) maintainers [] ;;
  Py.Ok (if Py.list_truthy issues then res ++ [ Issues issues ] else res).

(** ** The client and the top-level report

    [GH_CLIENT] is the session of the platform client.  It answers a
    repository lookup from the remote state, and the lookup is a request to
    the platform: the session records the requests it has made. *)

Record GitHub : Type := {
  remote : string -> string -> Repository;
  requests : list (string * string)
}.

Record GitHubAPI : Type := {
  OWNER : string;
  GH_CLIENT : GitHub
}.

(** [self.GH_CLIENT.repository(self.OWNER, repo)] *)
Definition repository (repo : string) (self : GitHubAPI)
    : Repository * GitHubAPI :=
  (remote (GH_CLIENT self) (OWNER self) repo,
   {| OWNER := OWNER self;
      GH_CLIENT := {| remote := remote (GH_CLIENT self);
                      requests := requests (GH_CLIENT self)
                                    ++ [ (OWNER self, repo) ] |} |}).

(** The loop of [report] over the dictionary [repos], repository name to
    maintainers, in the order of its keys. *)
Fixpoint report_repos (now : Z) (repos : list (string * list string))
    (acc : list RepoEntry) (self : GitHubAPI)
    : Py.result (list RepoEntry) * GitHubAPI :=
  match repos with
  | [] => (Py.Ok acc, self)
  | (repo, maintainers) :: rest =>
      let (repo_obj, self1) := repository repo self in
      match repo_report now repo_obj maintainers with
      | Py.Raise e => (Py.Raise e, self1)
      | Py.Ok report =>
          report_repos now rest
            (if Py.list_truthy report
             then acc ++ [ {| re_actions := report;
                              re_info := fetch_repo_info repo_obj |} ]
             else acc)
            self1
      end
  end.

(** The body of [report], under its decorator. *)
Definition report_body (repos : list (string * list string)) (now : Z)
    (self : GitHubAPI) : Py.result (list ReportItem) * GitHubAPI :=
  match report_repos now repos [] self with
  | (Py.Ok entries, self') =>
      (Py.Ok (if Py.list_truthy entries then [ Repos entries ] else []), self')
  | (Py.Raise e, self') => (Py.Raise e, self')
  end.

(** [lazy_load.lazy_func], the decorator of [report], from the library
    [lazy_load] (a wrapper over [lazy_object_proxy.Proxy]): a call of the
    decorated function does not run its body; it returns a proxy of the
    pending call.  The body runs when the proxy is first used, and the proxy
    keeps the value for its later uses; a body that raises leaves the proxy
    pending.  Every call makes a proxy of its own: the decorator keeps no
    table of earlier arguments. *)
Record Proxy (A : Type) : Type := {
  factory : Z -> GitHubAPI -> Py.result A * GitHubAPI;
  cached : option A
}.
Arguments factory {A} p.
Arguments cached {A} p.

Definition lazy_func {X A : Type}
    (func : X -> Z -> GitHubAPI -> Py.result A * GitHubAPI) (x : X) : Proxy A :=
  {| factory := func x; cached := None |}.


Definition report : list (string * list string) -> Proxy (list ReportItem) :=
  lazy_func report_body.

(** ** Properties of reports used in the statements below *)

(** A check result holds at most one action report, and its targets are
    among the maintainers. *)
Definition zero_or_one_within (maintainers : list string)
    (res : list ActionReport) : Prop :=
  (List.length res <= 1)%nat /\
  forall a, In a res -> incl (targets a) maintainers.

(** The actions of the stale and of the stale-comment check. *)
Definition close_action (maintainers : list string) : ActionReport :=
  {| label := "Close this!"; targets := maintainers |}.

Definition follow_up_action (maintainers : list string) : ActionReport :=
  {| label := "Follow up on this!"; targets := maintainers |}.

(** The entry of a comment and of a pull request in the report. *)
Definition comment_entry (maintainers : list string) (comment : Comment)
    : CommentEntry :=
  {| ce_actions := comment_report comment maintainers;
     ce_info := fetch_comment_info comment |}.

Definition pr_entry (now : Z) (maintainers : list string) (pr : PullRequest)
    : PrEntry :=
  {| pe_actions := pr_report now pr maintainers; pe_info := fetch_pr_info pr |}.

(** None of the comments has an action. *)
Definition no_comment_action (comments : list Comment)
    (maintainers : list string) : bool :=
  forallb (fun c => negb (Py.list_truthy (comment_report c maintainers)))
          comments.

(** Pruned trees: every entry has a non-empty list of actions, and every
    container that is present is non-empty, at every level. *)
Definition comment_entry_pruned (e : CommentEntry) : bool :=
  Py.list_truthy (ce_actions e).

Definition comment_group_pruned (l : list CommentEntry) : bool :=
  Py.list_truthy l && forallb comment_entry_pruned l.

Definition pr_item_pruned (it : PrItem) : bool :=
  match it with
  | PrAction _ => true
  | ReviewComments l => comment_group_pruned l
  | IssueComments l => comment_group_pruned l
  end.

Definition pr_entry_pruned (e : PrEntry) : bool :=
  Py.list_truthy (pe_actions e) && forallb pr_item_pruned (pe_actions e).

Definition issue_item_pruned (it : IssueItem) : bool :=
  match it with
  | IssueAction _ => true
  | Comments l => comment_group_pruned l
  end.

Definition issue_entry_pruned (e : IssueEntry) : bool :=
  Py.list_truthy (ie_actions e) && forallb issue_item_pruned (ie_actions e).

Definition repo_item_pruned (it : RepoItem) : bool :=
  match it with
  | Prs l => Py.list_truthy l && forallb pr_entry_pruned l
  | Issues l => Py.list_truthy l && forallb issue_entry_pruned l
  end.

Definition repo_entry_pruned (e : RepoEntry) : bool :=
  Py.list_truthy (re_actions e) && forallb repo_item_pruned (re_actions e).

Definition report_item_pruned (it : ReportItem) : bool :=
  match it with
  | Repos l => Py.list_truthy l && forallb repo_entry_pruned l
  end.

(** The pull-request entries found in a repository report. *)
Definition prs_of (items : list RepoItem) : list PrEntry :=
  flat_map (fun it => match it with Prs l => l | Issues _ => [] end) items.

(** The pull requests of a repository that get an entry. *)
Definition reported_prs (now : Z) (repo : Repository)
    (maintainers : list string) : list PullRequest :=
  filter (fun pr => String.eqb (pr_state pr) "open"
                    && Py.list_truthy (pr_report now pr maintainers))
         (pull_requests repo).

(** No check of the list fires on the subject. *)
Definition silent {S : Type} (fs : list (S -> list string -> list ActionReport))
    (s : S) (maintainers : list string) : bool :=
  forallb (fun f => negb (Py.list_truthy (f s maintainers))) fs.

(** ** Sample objects *)

Module Sample.

Definition alice : User :=
  {| login := "alice"; user_url := "https://api.github.com/users/alice" |}.
Definition carol : User :=
  {| login := "carol"; user_url := "https://api.github.com/users/carol" |}.

Definition maintainers : list string := [ "alice"; "bob" ].

(** 2019-06-01 00:00:00 UTC, in microseconds. *)
Definition now : Z := 1559347200000000.

Definition comment_by (u : User) (text : option string) : Comment :=
  {| comment_html_url := "https://github.com/inveniosoftware/r1/issues/5#c1";
     comment_created_at := 1559000000000000;
     comment_user := u;
     comment_body := text |}.

Definition mention_of_alice : Comment :=
  comment_by carol (Some "@alice please have a look").
Definition no_body : Comment := comment_by carol None.
Definition empty_body : Comment := comment_by carol (Some "").

Definition issue_with (ls : list Label) (cs : list Comment) : Issue :=
  {| issue_number := 5;
     issue_html_url := "https://github.com/inveniosoftware/r1/issues/5";
     issue_title := "Proposal";
     issue_created_at := 1558000000000000;
     issue_body := Some "A proposal.";
     issue_state := "open";
     issue_user := carol;
     issue_labels := ls;
     issue_comments := cs |}.

Definition rfc : Label :=
  {| label_name := "RFC"; label_color := "ededed";
     label_url := "https://api.github.com/repos/inveniosoftware/r1/labels/RFC" |}.

Definition issue_carol_last : Issue :=
  issue_with [] [ comment_by alice (Some "ok"); comment_by carol (Some "ping") ].
Definition issue_alice_last : Issue :=
  issue_with [] [ comment_by carol (Some "ping"); comment_by alice (Some "ok") ].
Definition issue_no_comments : Issue := issue_with [] [].
Definition issue_rfc : Issue := issue_with [ rfc ] [ comment_by carol (Some "ping") ].

Definition pr_updated (at_ : Z) : PullRequest :=
  {| pr_number := 7;
     pr_html_url := "https://github.com/inveniosoftware/r1/pull/7";
     pr_title := "global: fix typo";
     pr_created_at := 1540000000000000;
     pr_updated_at := at_;
     pr_body := Some "Fixes a typo.";
     pr_state := "open";
     pr_user := carol;
     pr_issue_url := Some "https://api.github.com/repos/inveniosoftware/r1/issues/7";
     pr_mergeable := Some false;
     pr_requested_reviewers := [];
     pr_issue := Some issue_no_comments;
     pr_review_comments := [];
     pr_issue_comments := [] |}.

(** Last updated exactly 90 days before [now]. *)
Definition pr_90_days : PullRequest := pr_updated (now - 90 * Py.us_per_day).

Definition r1 : Repository :=
  {| clone_url := "https://github.com/inveniosoftware/r1.git";
     repo_created_at := 1500000000000000;
     description := Some "A repository.";
     pull_requests := [ pr_updated (now - Py.us_per_day) ];
     issues := [ issue_rfc ] |}.

Definition api : GitHubAPI :=
  {| OWNER := "inveniosoftware";
     GH_CLIENT := {| remote := fun _ _ => r1; requests := [] |} |}.

Definition repos : list (string * list string) := [ ("r1", maintainers) ].


End Sample.

(** ** Further notions used in the statements below *)

(** [sub] occurs in [s]: the meaning of Python's [sub in s]. *)
Definition occurs_in (sub s : string) : Prop :=
  exists pre post : string, s = (pre ++ sub ++ post)%string.

Definition review_action (targets : list string) : ActionReport :=
  {| label := "Review this!"; targets := targets |}.

Definition skip_action (maintainers : list string) : ActionReport :=
  {| label := "Skip this for now!"; targets := maintainers |}.

(** The value of a report that returns; [[]] stands for one that raises. *)
Definition returned {A : Type} (r : Py.result (list A)) : list A :=
  match r with
  | Py.Ok v => v
  | Py.Raise _ => []
  end.

(** The entry of an issue, and the issues of a repository that get one. *)
Definition issue_entry (maintainers : list string) (issue : Issue)
    : IssueEntry :=
  {| ie_actions := returned (issue_report issue maintainers);
     ie_info := fetch_issue_info issue |}.

Definition issue_reported (maintainers : list string) (issue : Issue) : bool :=
  String.eqb (issue_state issue) "open"
  && Py.list_truthy (returned (issue_report issue maintainers)).

(** The issue entries found in a repository report. *)
Definition issues_of (items : list RepoItem) : list IssueEntry :=
  flat_map (fun it => match it with Prs _ => [] | Issues l => l end) items.

(** The repository without its closed pull requests and issues. *)
Definition open_only (repo : Repository) : Repository :=
  {| clone_url := clone_url repo;
     repo_created_at := repo_created_at repo;
     description := description repo;
     pull_requests :=
       filter (fun pr => String.eqb (pr_state pr) "open") (pull_requests repo);
     issues :=
       filter (fun i => String.eqb (issue_state i) "open") (issues repo) |}.

(** All the action reports of a tree, at every depth. *)
Definition comment_actions (entries : list CommentEntry) : list ActionReport :=
  flat_map ce_actions entries.

Definition pr_item_actions (it : PrItem) : list ActionReport :=
  match it with
  | PrAction a => [ a ]
  | ReviewComments l => comment_actions l
  | IssueComments l => comment_actions l
  end.

Definition issue_item_actions (it : IssueItem) : list ActionReport :=
  match it with
  | IssueAction a => [ a ]
  | Comments l => comment_actions l
  end.

Definition repo_item_actions (it : RepoItem) : list ActionReport :=
  match it with
  | Prs l => flat_map (fun e => flat_map pr_item_actions (pe_actions e)) l
  | Issues l => flat_map (fun e => flat_map issue_item_actions (ie_actions e)) l
  end.

(** The entry of a repository of the dictionary, looked up on the session,
    and whether it gets one. *)
Definition repo_entry (now : Z) (self : GitHubAPI)
    (item : string * list string) : RepoEntry :=
  let repo_obj := remote (GH_CLIENT self) (OWNER self) (fst item) in
  {| re_actions := returned (repo_report now repo_obj (snd item));
     re_info := fetch_repo_info repo_obj |}.

Definition repo_reported (now : Z) (self : GitHubAPI)
    (item : string * list string) : bool :=
  Py.list_truthy
    (returned (repo_report now (remote (GH_CLIENT self) (OWNER self) (fst item))
                           (snd item))).

(** Further sample objects. *)
Module Sample2.

Definition wip_pr (updated : Z) : PullRequest :=
  {| pr_number := 8;
     pr_html_url := "https://github.com/inveniosoftware/r1/pull/8";
     pr_title := "[WIP] records: new API";
     pr_created_at := 1540000000000000;
     pr_updated_at := updated;
     pr_body := None;
     pr_state := "open";
     pr_user := Sample.carol;
     pr_issue_url := None;
     pr_mergeable := None;
     pr_requested_reviewers := [ Sample.alice ];
     pr_issue := None;
     pr_review_comments := [ Sample.mention_of_alice ];
     pr_issue_comments := [] |}.

Definition stale_wip : PullRequest :=
  wip_pr (Sample.now - 100 * Py.us_per_day).

Definition r2 : Repository :=
  {| clone_url := "https://github.com/inveniosoftware/r2.git";
     repo_created_at := 1500000000000000;
     description := None;
     pull_requests := [ Sample.pr_updated Sample.now; stale_wip ];
     issues := [] |}.

End Sample2.

(** A repository whose only pull request turns 90 days old one microsecond
    after [Sample.now]. *)
Module Sample3.

Definition almost_stale : PullRequest :=
  Sample.pr_updated (Sample.now - 90 * Py.us_per_day + 1).

Definition r3 : Repository :=
  {| clone_url := "https://github.com/inveniosoftware/r3.git";
     repo_created_at := 1500000000000000;
     description := None;
     pull_requests := [ almost_stale ];
     issues := [] |}.

Definition api : GitHubAPI :=
  {| OWNER := "inveniosoftware";
     GH_CLIENT := {| remote := fun _ _ => r3; requests := [] |} |}.

Definition repos : list (string * list string) :=
  [ ("r3", Sample.maintainers) ].

End Sample3.

(** * Theorems *)

(** ** Python primitives *)

Lemma str_in_list_In (x : string) (l : list string) :
  Py.str_in_list x l = true <-> In x l.
Proof.
  unfold Py.str_in_list. rewrite existsb_exists. split.
  - intros [y [Hy Heq]]. apply String.eqb_eq in Heq. now subst.
  - intros Hin. exists x. split; [assumption | apply String.eqb_refl].
Qed.

Lemma str_in_list_not_In (x : string) (l : list string) :
  Py.str_in_list x l = false <-> ~ In x l.
Proof.
  rewrite <- str_in_list_In. destruct (Py.str_in_list x l); intuition congruence.
Qed.

Lemma list_truthy_false {A : Type} (l : list A) :
  Py.list_truthy l = false <-> l = [].
Proof. destruct l; simpl; split; congruence. Qed.

Lemma last_item_app {A : Type} (l : list A) (x : A) :
  Py.last_item (l ++ [x]) = Py.Ok x.
Proof.
  induction l as [| y l IH]; [reflexivity |].
  simpl. destruct (l ++ [x]) eqn:E; [destruct l; discriminate | exact IH].
Qed.

Lemma timedelta_days_ge (delta n : Z) :
  (n <=? Py.timedelta_days delta)%Z = (n * Py.us_per_day <=? delta)%Z.
Proof.
  unfold Py.timedelta_days.
  assert (Hpos : (0 < Py.us_per_day)%Z) by (unfold Py.us_per_day; lia).
  destruct (Z.leb_spec n (delta / Py.us_per_day));
    destruct (Z.leb_spec (n * Py.us_per_day) delta); try reflexivity; exfalso.
  - pose proof (Z.mul_div_le delta _ Hpos). nia.
  - assert (Hn : (n <= delta / Py.us_per_day)%Z)
      by (apply Z.div_le_lower_bound; lia).
    lia.
Qed.

(** ** The mentions check *)

(** Every candidate is one character with its first character removed. *)
Lemma mention_candidates_empty (b cand : string) :
  In cand (mention_candidates b) -> cand = "".
Proof.
  unfold mention_candidates. induction b as [| c b IH]; simpl.
  - contradiction.
  - intros [H | H]; [now subst | now apply IH].
Qed.

Lemma mentioned_empty_login {A : Type} `{HasBody A} (m : A) (l : string) :
  mentioned m l = true -> l = "".
Proof.
  unfold mentioned. destruct (body m) as [b |]; [| discriminate].
  intros Hm. apply andb_true_iff in Hm as [_ Hin].
  apply str_in_list_In in Hin. now apply mention_candidates_empty in Hin.
Qed.

Lemma filter_none {A : Type} (p : A -> bool) (l : list A) :
  (forall x, In x l -> p x = false) -> filter p l = [].
Proof.
  induction l as [| x l IH]; intros Hp; [reflexivity |].
  simpl. rewrite (Hp x (or_introl eq_refl)). apply IH.
  intros y Hy. apply Hp. now right.
Qed.

(** C1: on a comment whose body is ["@alice please have a look"], with
    [alice] a maintainer, [check_mentions] returns no action: the mention of
    a maintainer by an [@]-token is missed. *)
Theorem check_mentions_misses_token :
  body Sample.mention_of_alice = Some "@alice please have a look" /\
  In "alice" Sample.maintainers /\
  check_mentions Sample.mention_of_alice Sample.maintainers = [].
Proof. repeat split. simpl. now left. Qed.

(** C7: a subject whose body is absent or empty never triggers the mentions
    check, whatever the maintainers. *)
Theorem check_mentions_no_body :
  forall (A : Type) (HB : HasBody A) (m : A) (maintainers : list string),
    body m = None \/ body m = Some "" ->
    check_mentions m maintainers = [].
Proof.
  intros A HB m maintainers Hb. unfold check_mentions.
  rewrite filter_none; [reflexivity |].
  intros l _. unfold mentioned. destruct Hb as [-> | ->]; reflexivity.
Qed.

Lemma check_mentions_no_body_witness :
  (body Sample.no_body = None \/ body Sample.no_body = Some "") /\
  (body Sample.empty_body = None \/ body Sample.empty_body = Some "") /\
  check_mentions Sample.no_body Sample.maintainers = [] /\
  check_mentions Sample.empty_body Sample.maintainers = [].
Proof.
  refine (conj (or_introl eq_refl) (conj (or_intror eq_refl) (conj _ _))).
  - exact (check_mentions_no_body Comment _ Sample.no_body Sample.maintainers
             (or_introl eq_refl)).
  - exact (check_mentions_no_body Comment _ Sample.empty_body Sample.maintainers
             (or_intror eq_refl)).
Defined.

(** C9: when no maintainer's account name is the empty string, the mentions
    check as implemented returns no action on any subject: each candidate is
    a single character of the body without its first character, the empty
    string. *)
Theorem check_mentions_only_empty_login :
  forall (A : Type) (HB : HasBody A) (m : A) (maintainers : list string),
    ~ In "" maintainers ->
    (forall b cand, In cand (mention_candidates b) -> cand = "") /\
    check_mentions m maintainers = [].
Proof.
  intros A HB m maintainers Hne. split; [exact mention_candidates_empty |].
  unfold check_mentions. rewrite filter_none; [reflexivity |].
  intros l Hl. destruct (mentioned m l) eqn:E; [| reflexivity].
  apply mentioned_empty_login in E. subst. contradiction.
Qed.

Lemma check_mentions_only_empty_login_witness :
  ~ In "" Sample.maintainers /\
  check_mentions Sample.mention_of_alice Sample.maintainers = [].
Proof.
  assert (Hne : ~ In "" Sample.maintainers).
  { simpl. intros [H | [H | H]]; [discriminate H | discriminate H | exact H]. }
  split; [exact Hne |].
  exact (proj2 (check_mentions_only_empty_login Comment _
                  Sample.mention_of_alice Sample.maintainers Hne)).
Defined.

(** ** The stale check *)

(** C5: the stale check fires exactly when [now - updated_at] is at least 90
    days, and then returns ["Close this!"] for all the maintainers. *)
Theorem check_close_fires_iff :
  forall (now : Z) (pr : PullRequest) (maintainers : list string),
    check_close now pr maintainers =
      if (90 * Py.us_per_day <=? now - pr_updated_at pr)%Z
      then [ close_action maintainers ]
      else [].
Proof.
  intros now pr maintainers. unfold check_close.
  change (3 * 30)%Z with 90%Z. now rewrite timedelta_days_ge.
Qed.

(** C4, as the code has it: a pull request last updated exactly 90 days
    before [now] is stale, the check fires for all the maintainers. *)
Theorem check_close_at_90_days :
  forall (now : Z) (pr : PullRequest) (maintainers : list string),
    pr_updated_at pr = (now - 90 * Py.us_per_day)%Z ->
    check_close now pr maintainers = [ close_action maintainers ].
Proof.
  intros now pr maintainers Hupd. unfold check_close.
  change (3 * 30)%Z with 90%Z. rewrite timedelta_days_ge, Hupd.
  replace (now - (now - 90 * Py.us_per_day))%Z with (90 * Py.us_per_day)%Z by lia.
  now rewrite Z.leb_refl.
Qed.

Lemma check_close_at_90_days_witness :
  pr_updated_at Sample.pr_90_days = (Sample.now - 90 * Py.us_per_day)%Z /\
  check_close Sample.now Sample.pr_90_days Sample.maintainers =
    [ close_action Sample.maintainers ].
Proof.
  split; [reflexivity |].
  exact (check_close_at_90_days Sample.now Sample.pr_90_days Sample.maintainers
           eq_refl).
Defined.

(** C4, as the claim has it, fails: at exactly 90 days the check fires. *)
Lemma check_close_fires_at_90_days :
  (Sample.now - pr_updated_at Sample.pr_90_days = 90 * Py.us_per_day)%Z /\
  check_close Sample.now Sample.pr_90_days [ "alice"; "bob" ] =
    [ {| label := "Close this!"; targets := [ "alice"; "bob" ] |} ].
Proof. split; vm_compute; reflexivity. Qed.

(** ** The stale-comment check *)

Lemma check_comments_last (issue : Issue) (maintainers : list string)
    (earlier : list Comment) (last : Comment) :
  issue_comments issue = earlier ++ [last] ->
  check_comments issue maintainers =
    Py.Ok (if Py.str_in_list (login (comment_user last)) maintainers
           then [] else [ follow_up_action maintainers ]).
Proof.
  intros Hcs. unfold check_comments. rewrite Hcs, last_item_app.
  destruct earlier; simpl;
    destruct (Py.str_in_list (login (comment_user last)) maintainers);
    reflexivity.
Qed.

(** C6: on an issue with at least one comment, the stale-comment check does
    not fire when the author of the last comment is a maintainer, and fires
    with ["Follow up on this!"] for all the maintainers when that author is
    not one. *)
Theorem check_comments_last_author :
  forall (issue : Issue) (maintainers : list string)
         (earlier : list Comment) (last : Comment),
    issue_comments issue = earlier ++ [last] ->
    (In (login (comment_user last)) maintainers ->
     check_comments issue maintainers = Py.Ok []) /\
    (~ In (login (comment_user last)) maintainers ->
     check_comments issue maintainers = Py.Ok [ follow_up_action maintainers ]).
Proof.
  intros issue maintainers earlier last Hcs.
  rewrite (check_comments_last issue maintainers earlier last Hcs).
  split; intros Hin.
  - apply str_in_list_In in Hin. now rewrite Hin.
  - apply str_in_list_not_In in Hin. now rewrite Hin.
Qed.

Lemma check_comments_last_author_witness :
  (In "alice" Sample.maintainers /\
   check_comments Sample.issue_alice_last Sample.maintainers = Py.Ok []) /\
  (~ In "carol" Sample.maintainers /\
   check_comments Sample.issue_carol_last Sample.maintainers =
     Py.Ok [ follow_up_action Sample.maintainers ]).
Proof.
  assert (Ha : In "alice" Sample.maintainers) by (left; reflexivity).
  assert (Hc : ~ In "carol" Sample.maintainers).
  { simpl. intros [H | [H | H]]; [discriminate H | discriminate H | exact H]. }
  split; (split; [assumption |]).
  - exact (proj1 (check_comments_last_author Sample.issue_alice_last
                    Sample.maintainers
                    [ Sample.comment_by Sample.carol (Some "ping") ]
                    (Sample.comment_by Sample.alice (Some "ok")) eq_refl) Ha).
  - exact (proj2 (check_comments_last_author Sample.issue_carol_last
                    Sample.maintainers
                    [ Sample.comment_by Sample.alice (Some "ok") ]
                    (Sample.comment_by Sample.carol (Some "ping")) eq_refl) Hc).
Defined.

Lemma check_comments_returns (issue : Issue) (maintainers : list string) :
  exists res, check_comments issue maintainers = Py.Ok res /\
              (res = [] \/ res = [ follow_up_action maintainers ]).
Proof.
  destruct (issue_comments issue) as [| c cs] eqn:Hcs.
  - exists []. unfold check_comments. rewrite Hcs. simpl. auto.
  - destruct (@exists_last _ (c :: cs)) as [earlier [last Hl]]; [discriminate |].
    rewrite <- Hcs in Hl.
    rewrite (check_comments_last issue maintainers earlier last Hl).
    destruct (Py.str_in_list _ _); eauto.
Qed.

(** C10: on an issue without comments the stale-comment check returns no
    action; the index of the last comment is taken only on a non-empty
    list, so the check returns on every issue and never raises. *)
Theorem check_comments_no_comments :
  forall (issue : Issue) (maintainers : list string),
    (exists res, check_comments issue maintainers = Py.Ok res) /\
    (issue_comments issue = [] -> check_comments issue maintainers = Py.Ok []).
Proof.
  intros issue maintainers. split.
  - destruct (check_comments_returns issue maintainers) as [res [Hres _]].
    now exists res.
  - intros Hcs. unfold check_comments. now rewrite Hcs.
Qed.

Lemma check_comments_no_comments_witness :
  issue_comments Sample.issue_no_comments = [] /\
  check_comments Sample.issue_no_comments Sample.maintainers = Py.Ok [].
Proof.
  split; [reflexivity |].
  exact (proj2 (check_comments_no_comments Sample.issue_no_comments
                  Sample.maintainers) eq_refl).
Defined.

(** ** Every check returns at most one action, aimed at maintainers *)

Lemma within_nil (maintainers : list string) :
  zero_or_one_within maintainers [].
Proof. split; [simpl; lia | intros a []]. Qed.

Lemma within_one (maintainers : list string) (l : string) (ts : list string) :
  incl ts maintainers ->
  zero_or_one_within maintainers [ {| label := l; targets := ts |} ].
Proof.
  intros Hincl. split; [simpl; lia |].
  intros a [<- | []]. exact Hincl.
Qed.

Lemma within_if (maintainers : list string) (c : bool) (l : string)
    (ts : list string) :
  incl ts maintainers ->
  zero_or_one_within maintainers
    (if c then [ {| label := l; targets := ts |} ] else []).
Proof.
  intros Hincl. destruct c; [now apply within_one | apply within_nil].
Qed.

Create HintDb checks.
#[local] Hint Resolve within_nil within_one within_if incl_refl incl_filter
  : checks.

(** C8: every predicate check returns zero or one action report on every
    input, and the targets of a returned report are among the maintainers
    the check was given. *)
Theorem checks_return_at_most_one_within :
  forall (now : Z) (pr : PullRequest) (issue : Issue)
         (A : Type) (HB : HasBody A) (m : A) (maintainers : list string),
    zero_or_one_within maintainers (check_mentions m maintainers) /\
    zero_or_one_within maintainers (check_mergeable pr maintainers) /\
    zero_or_one_within maintainers (check_review pr maintainers) /\
    zero_or_one_within maintainers
      (check_if_connected_with_issue pr maintainers) /\
    zero_or_one_within maintainers (check_close now pr maintainers) /\
    zero_or_one_within maintainers (check_follow_up now pr maintainers) /\
    zero_or_one_within maintainers (check_labels issue maintainers) /\
    (exists res, check_comments issue maintainers = Py.Ok res /\
                 zero_or_one_within maintainers res).
Proof.
  intros now pr issue A HB m maintainers.
  repeat match goal with |- _ /\ _ => split end.
  - unfold check_mentions. auto with checks.
  - unfold check_mergeable. destruct (pr_mergeable pr) as [[|] |];
      auto with checks.
  - unfold check_review. auto with checks.
  - unfold check_if_connected_with_issue. destruct (pr_issue pr);
      auto with checks.
  - unfold check_close. auto with checks.
  - unfold check_follow_up. auto with checks.
  - unfold check_labels. auto with checks.
  - destruct (check_comments_returns issue maintainers) as [res [Hres Hcase]].
    exists res. split; [exact Hres |].
    destruct Hcase as [-> | ->]; unfold follow_up_action; auto with checks.
Qed.

(** ** Pruning *)

Section Folds.

Context {A B : Type}.

Lemma fold_left_ext (f g : B -> A -> B) (l : list A) (acc : B) :
  (forall b a, f b a = g b a) -> fold_left f l acc = fold_left g l acc.
Proof.
  intros Hfg. revert acc.
  induction l as [| x l IH]; intros acc; simpl; [reflexivity |].
  now rewrite Hfg, IH.
Qed.

(** A loop that appends [g x] for the items [x] that pass [p]. *)
Lemma fold_left_select (p : A -> bool) (g : A -> B) (l : list A)
    (acc : list B) :
  fold_left (fun acc x => if p x then acc ++ [g x] else acc) l acc
  = acc ++ map g (filter p l).
Proof.
  revert acc. induction l as [| x l IH]; intros acc; simpl.
  - now rewrite app_nil_r.
  - rewrite IH. destruct (p x); simpl; [| reflexivity].
    now rewrite <- app_assoc.
Qed.

(** A loop that appends the results [g x] of every item. *)
Lemma fold_left_collect (g : A -> list B) (l : list A) (acc : list B) :
  fold_left (fun acc x => acc ++ g x) l acc = acc ++ flat_map g l.
Proof.
  revert acc. induction l as [| x l IH]; intros acc; simpl.
  - now rewrite app_nil_r.
  - now rewrite IH, app_assoc.
Qed.

Lemma truthy_select (p : A -> bool) (g : A -> B) (l : list A) :
  Py.list_truthy (map g (filter p l)) = existsb p l.
Proof.
  induction l as [| x l IH]; simpl; [reflexivity |].
  destruct (p x); simpl; [reflexivity | exact IH].
Qed.

Lemma truthy_flat_map (g : A -> list B) (l : list A) :
  Py.list_truthy (flat_map g l) = existsb (fun x => Py.list_truthy (g x)) l.
Proof.
  induction l as [| x l IH]; simpl; [reflexivity |].
  destruct (g x); simpl; [exact IH | reflexivity].
Qed.

Lemma truthy_map (g : A -> B) (l : list A) :
  Py.list_truthy (map g l) = Py.list_truthy l.
Proof. now destruct l. Qed.

Lemma forallb_select (q : B -> bool) (p : A -> bool) (g : A -> B)
    (l : list A) :
  (forall x, p x = true -> q (g x) = true) ->
  forallb q (map g (filter p l)) = true.
Proof.
  intros Hq. induction l as [| x l IH]; simpl; [reflexivity |].
  destruct (p x) eqn:E; simpl; [| exact IH].
  now rewrite (Hq x E), IH.
Qed.

End Folds.

Lemma truthy_app {A : Type} (l1 l2 : list A) :
  Py.list_truthy (l1 ++ l2) = Py.list_truthy l1 || Py.list_truthy l2.
Proof. now destruct l1. Qed.

Lemma negb_existsb {A : Type} (p : A -> bool) (l : list A) :
  negb (existsb p l) = forallb (fun x => negb (p x)) l.
Proof.
  induction l as [| x l IH]; simpl; [reflexivity |].
  now rewrite negb_orb, IH.
Qed.

Lemma comment_entries_select (comments : list Comment)
    (maintainers : list string) :
  comment_entries comments maintainers =
    map (comment_entry maintainers)
        (filter (fun c => Py.list_truthy (comment_report c maintainers))
                comments).
Proof.
  unfold comment_entries.
  exact (fold_left_select
           (fun c => Py.list_truthy (comment_report c maintainers))
           (comment_entry maintainers) comments []).
Qed.

Lemma comment_entries_truthy (comments : list Comment)
    (maintainers : list string) :
  Py.list_truthy (comment_entries comments maintainers) =
    existsb (fun c => Py.list_truthy (comment_report c maintainers)) comments.
Proof. rewrite comment_entries_select. apply truthy_select. Qed.

Lemma comment_entries_pruned (comments : list Comment)
    (maintainers : list string) :
  forallb comment_entry_pruned (comment_entries comments maintainers) = true.
Proof.
  rewrite comment_entries_select. apply forallb_select.
  intros c Hc. exact Hc.
Qed.

(** The optional container appended after the actions of a subject. *)
Lemma comment_group_if {I : Type} (q : I -> bool)
    (wrap : list CommentEntry -> I) (res : list I)
    (comments : list Comment) (maintainers : list string) :
  (forall l, q (wrap l) = comment_group_pruned l) ->
  forallb q res = true ->
  forallb q (if Py.list_truthy (comment_entries comments maintainers)
             then res ++ [ wrap (comment_entries comments maintainers) ]
             else res) = true.
Proof.
  intros Hq Hres.
  destruct (Py.list_truthy (comment_entries comments maintainers)) eqn:E;
    [| exact Hres].
  rewrite forallb_app, Hres. simpl. rewrite Hq.
  unfold comment_group_pruned. now rewrite E, comment_entries_pruned.
Qed.

Lemma pr_actions_pruned (l : list ActionReport) :
  forallb pr_item_pruned (map PrAction l) = true.
Proof. induction l; simpl; auto. Qed.

Lemma issue_actions_pruned (l : list ActionReport) :
  forallb issue_item_pruned (map IssueAction l) = true.
Proof. induction l; simpl; auto. Qed.

Lemma pr_report_actions (now : Z) (pr : PullRequest)
    (maintainers : list string) :
  fold_left (fun res f => res ++ map PrAction (f pr maintainers))
            (pr_filters now) []
  = map PrAction (flat_map (fun f => f pr maintainers) (pr_filters now)).
Proof.
  rewrite (fold_left_collect (fun f => map PrAction (f pr maintainers))).
  rewrite app_nil_l. generalize (pr_filters now) as fs. intros fs.
  induction fs as [| f fs IH]; simpl; [reflexivity |].
  now rewrite map_app, IH.
Qed.

Lemma pr_report_pruned (now : Z) (pr : PullRequest)
    (maintainers : list string) :
  forallb pr_item_pruned (pr_report now pr maintainers) = true.
Proof.
  unfold pr_report. rewrite pr_report_actions.
  apply comment_group_if; [reflexivity |].
  apply comment_group_if; [reflexivity |].
  apply pr_actions_pruned.
Qed.

Lemma pr_report_truthy (now : Z) (pr : PullRequest)
    (maintainers : list string) :
  Py.list_truthy (pr_report now pr maintainers) =
    existsb (fun f => Py.list_truthy (f pr maintainers)) (pr_filters now)
    || existsb (fun c => Py.list_truthy (comment_report c maintainers))
               (pr_review_comments pr ++ pr_issue_comments pr).
Proof.
  unfold pr_report. rewrite pr_report_actions, existsb_app.
  rewrite <- !comment_entries_truthy.
  rewrite <- (truthy_flat_map (fun f => f pr maintainers)).
  rewrite <- (truthy_map PrAction).
  set (acts := map PrAction _).
  destruct (comment_entries (pr_review_comments pr) maintainers) eqn:Er;
    destruct (comment_entries (pr_issue_comments pr) maintainers) eqn:Ei;
    simpl; rewrite ?truthy_app; simpl;
    rewrite ?orb_false_r, ?orb_true_r; reflexivity.
Qed.

Lemma issue_report_returns (issue : Issue) (maintainers : list string) :
  exists res, issue_report issue maintainers = Py.Ok res /\
              forallb issue_item_pruned res = true.
Proof.
  unfold issue_report, issue_filters, run_issue_filters.
  destruct (check_comments_returns issue maintainers) as [r [Hr _]].
  simpl. rewrite Hr. simpl. eexists. split; [reflexivity |].
  apply comment_group_if; [reflexivity |].
  now rewrite !forallb_app, !issue_actions_pruned.
Qed.

Lemma issue_entries_returns (l : list Issue) (maintainers : list string) :
  forall acc : list IssueEntry,
    forallb issue_entry_pruned acc = true ->
    exists entries, issue_entries l maintainers acc = Py.Ok entries /\
                    forallb issue_entry_pruned entries = true.
Proof.
  induction l as [| issue l IH]; intros acc Hacc; simpl.
  - now exists acc.
  - destruct (negb (issue_state issue =? "open")); [now apply IH |].
    destruct (issue_report_returns issue maintainers) as [res [Hres Hpruned]].
    rewrite Hres. simpl. apply IH.
    destruct (Py.list_truthy res) eqn:E; [| exact Hacc].
    rewrite forallb_app, Hacc. simpl.
    unfold issue_entry_pruned. simpl. now rewrite E, Hpruned.
Qed.

Lemma pr_entries_select (now : Z) (prs : list PullRequest)
    (maintainers : list string) :
  pr_entries now prs maintainers =
    map (pr_entry now maintainers)
        (filter (fun pr => String.eqb (pr_state pr) "open"
                           && Py.list_truthy (pr_report now pr maintainers))
                prs).
Proof.
  unfold pr_entries.
  rewrite <- (app_nil_l (map _ _)), <- fold_left_select.
  apply fold_left_ext. intros acc pr.
  destruct (pr_state pr =? "open"); reflexivity.
Qed.

Lemma pr_entries_pruned (now : Z) (prs : list PullRequest)
    (maintainers : list string) :
  forallb pr_entry_pruned (pr_entries now prs maintainers) = true.
Proof.
  rewrite pr_entries_select. apply forallb_select.
  intros pr Hpr. apply andb_true_iff in Hpr as [_ Ht].
  unfold pr_entry_pruned, pr_entry. simpl.
  now rewrite Ht, pr_report_pruned.
Qed.

Lemma repo_report_returns (now : Z) (repo : Repository)
    (maintainers : list string) :
  exists items,
    repo_report now repo maintainers = Py.Ok items /\
    forallb repo_item_pruned items = true /\
    prs_of items = map (pr_entry now maintainers)
                       (reported_prs now repo maintainers).
Proof.
  unfold repo_report, reported_prs.
  destruct (issue_entries_returns (issues repo) maintainers [] eq_refl)
    as [ies [Hies Hpruned]].
  rewrite Hies. simpl. eexists. split; [reflexivity |].
  rewrite <- pr_entries_select.
  pose proof (pr_entries_pruned now (pull_requests repo) maintainers) as Hprs.
  destruct (pr_entries now (pull_requests repo) maintainers) as [| e es];
    destruct ies as [| ie ies']; simpl in *; rewrite ?app_nil_r;
    rewrite ?Hprs, ?Hpruned; auto.
Qed.

(** What a run of the loop of [report] leaves: the result, and the session
    with one more request per repository of the dictionary. *)
Lemma report_repos_returns (now : Z) (repos : list (string * list string)) :
  forall (acc : list RepoEntry) (self : GitHubAPI),
    exists entries self',
      report_repos now repos acc self = (Py.Ok entries, self') /\
      OWNER self' = OWNER self /\
      remote (GH_CLIENT self') = remote (GH_CLIENT self) /\
      requests (GH_CLIENT self') =
        requests (GH_CLIENT self) ++ map (fun r => (OWNER self, fst r)) repos /\
      (forallb repo_entry_pruned acc = true ->
       forallb repo_entry_pruned entries = true).
Proof.
  induction repos as [| [repo maintainers] rest IH]; intros acc self; simpl.
  - exists acc, self. rewrite app_nil_r. auto.
  - destruct (repo_report_returns now
                (remote (GH_CLIENT self) (OWNER self) repo) maintainers)
      as [items [Hitems [Hpruned _]]].
    rewrite Hitems.
    match goal with
    | |- context [report_repos now rest ?a ?s] =>
        destruct (IH a s) as [entries [self' [Hrun [Ho [Hr [Hq Hp]]]]]]
    end.
    exists entries, self'. simpl in Ho, Hr, Hq.
    rewrite Hrun, Ho, Hr, Hq, <- app_assoc. repeat split.
    intros Hacc. apply Hp.
    destruct (Py.list_truthy items) eqn:E; [| exact Hacc].
    rewrite forallb_app, Hacc. simpl.
    unfold repo_entry_pruned. simpl. now rewrite E, Hpruned.
Qed.


(** C2: a node is in the output only with a non-empty list of actions, and a
    container only when it is non-empty.  A pull request has an empty
    report exactly when none of its checks fires and none of its comments
    has an action; the repository report returns, is pruned at every level,
    and its pull-request entries are those of the open pull requests with a
    non-empty report, so a silent pull request has no entry; the top-level
    report returns and is pruned as well. *)
Theorem report_is_pruned :
  (forall (now : Z) (pr : PullRequest) (maintainers : list string),
     negb (Py.list_truthy (pr_report now pr maintainers)) =
       silent (pr_filters now) pr maintainers
       && no_comment_action (pr_review_comments pr ++ pr_issue_comments pr)
                            maintainers) /\
  (forall (now : Z) (repo : Repository) (maintainers : list string),
     exists items,
       repo_report now repo maintainers = Py.Ok items /\
       forallb repo_item_pruned items = true /\
       prs_of items = map (pr_entry now maintainers)
                          (reported_prs now repo maintainers)) /\
  (forall (repos : list (string * list string)) (now : Z) (self : GitHubAPI),
     exists out self',
       report_body repos now self = (Py.Ok out, self') /\
       forallb report_item_pruned out = true).
Proof.
  split; [| split].
  - intros now pr maintainers.
    rewrite pr_report_truthy, negb_orb, !negb_existsb. reflexivity.
  - exact repo_report_returns.
  - intros repos now self. unfold report_body.
    destruct (report_repos_returns now repos [] self)
      as [entries [self' [Hrun [_ [_ [_ Hpruned]]]]]].
    rewrite Hrun. eexists. exists self'. split; [reflexivity |].
    specialize (Hpruned eq_refl).
    destruct entries as [| e es]; [reflexivity |].
    simpl in *. now rewrite Hpruned.
Qed.

(** ** The decorated [report] *)





(** ** The model on the sample objects *)

(** Only the empty account name is ever matched by the mentions check. *)
Example check_mentions_empty_login :
  check_mentions Sample.mention_of_alice [ ""; "alice" ] =
    [ {| label := "You've been mentioned here!"; targets := [ "" ] |} ].
Proof. reflexivity. Qed.

(** An open issue labelled RFC whose only comment is by a non-maintainer. *)
Example issue_report_rfc :
  issue_report Sample.issue_rfc Sample.maintainers =
    Py.Ok [ IssueAction {| label := "Skip this for now!";
                           targets := Sample.maintainers |};
            IssueAction (follow_up_action Sample.maintainers) ].
Proof. reflexivity. Qed.

(** The repository report holds the issue, and nothing for the silent pull
    request. *)
Example repo_report_r1 :
  repo_report Sample.now Sample.r1 Sample.maintainers =
    Py.Ok [ Issues [ {| ie_actions :=
                          [ IssueAction {| label := "Skip this for now!";
                                           targets := Sample.maintainers |};
                            IssueAction (follow_up_action Sample.maintainers) ];
                        ie_info := fetch_issue_info Sample.issue_rfc |} ] ].
Proof. vm_compute. reflexivity. Qed.

(** * Further properties of the checks and of the report *)

(** ** Substrings *)

Lemma prefix_app (a s : string) :
  prefix a s = true <-> exists post : string, s = (a ++ post)%string.
Proof.
  revert s. induction a as [| c a IH]; intros s; simpl.
  - split; [intros _; now exists s | intros _; now destruct s].
  - destruct s as [| d s]; simpl.
    + split; [discriminate | intros [post H]; discriminate H].
    + destruct (ascii_dec c d) as [-> | Hne].
      * rewrite IH. split; intros [post H]; exists post.
        -- now rewrite H.
        -- now inversion H.
      * split; [discriminate |].
        intros [post H]. injection H as Hcd _. congruence.
Qed.

Lemma str_contains_occurs (sub s : string) :
  Py.str_contains sub s = true <-> occurs_in sub s.
Proof.
  unfold occurs_in. induction s as [| c s IH].
  - change (Py.str_contains sub "") with (prefix sub "" || false).
    rewrite orb_false_r, prefix_app. split.
    + intros [post H]. now exists "", post.
    + intros [[| d pre] [post H]]; [now exists post | discriminate H].
  - change (Py.str_contains sub (String c s))
      with (prefix sub (String c s) || Py.str_contains sub s).
    rewrite orb_true_iff, prefix_app, IH. split.
    + intros [[post H] | [pre [post H]]].
      * now exists "", post.
      * exists (String c pre), post. simpl. now rewrite H.
    + intros [[| d pre] [post H]].
      * left. now exists post.
      * right. exists pre, post. simpl in H. now inversion H.
Qed.

(** ** The single checks *)

Lemma filter_nil_iff {A : Type} (p : A -> bool) (l : list A) :
  filter p l = [] <-> forall x, In x l -> p x = false.
Proof.
  split; [| apply filter_none].
  intros Hnil x Hx. destruct (p x) eqn:E; [| reflexivity].
  assert (Hin : In x (filter p l)) by (apply filter_In; auto).
  rewrite Hnil in Hin. destruct Hin.
Qed.

Lemma if_truthy_nil {A B : Type} (l : list A) (x : B) :
  (if Py.list_truthy l then [ x ] else []) = [] <-> l = [].
Proof. destruct l; simpl; split; congruence. Qed.

(** X1: the review check returns no action exactly when no maintainer is
    among the requested reviewers of the pull request; an action it returns
    is ["Review this!"], and its targets are the maintainers that are
    requested reviewers. *)
Theorem check_review_matches :
  forall (pr : PullRequest) (maintainers : list string),
    (check_review pr maintainers = [] <->
     forall l, In l maintainers ->
               ~ In l (map login (pr_requested_reviewers pr))) /\
    (forall a, In a (check_review pr maintainers) ->
       label a = "Review this!" /\
       forall l, In l (targets a) <->
                 In l maintainers /\
                 In l (map login (pr_requested_reviewers pr))).
Proof.
  intros pr maintainers. unfold check_review. split.
  - rewrite if_truthy_nil, filter_nil_iff.
    split; intros H l Hl; specialize (H l Hl).
    + now apply str_in_list_not_In.
    + now apply str_in_list_not_In.
  - intros a Ha.
    destruct (Py.list_truthy _); [| destruct Ha].
    destruct Ha as [<- | []]. split; [reflexivity |].
    intros l. simpl. rewrite filter_In, str_in_list_In. reflexivity.
Qed.

(** X2: the follow-up check fires exactly when ["WIP"] occurs in the title
    of the pull request and [now - updated_at] is at least 30 days; it then
    returns ["Follow up on this!"] for all the maintainers, and nothing
    otherwise. *)
Theorem check_follow_up_fires_iff :
  forall (now : Z) (pr : PullRequest) (maintainers : list string),
    (check_follow_up now pr maintainers = [ follow_up_action maintainers ] <->
     occurs_in "WIP" (pr_title pr) /\
     (30 * Py.us_per_day <= now - pr_updated_at pr)%Z) /\
    (check_follow_up now pr maintainers = [] <->
     ~ (occurs_in "WIP" (pr_title pr) /\
        (30 * Py.us_per_day <= now - pr_updated_at pr)%Z)).
Proof.
  intros now pr maintainers. unfold check_follow_up.
  change (1 * 30)%Z with 30%Z. rewrite timedelta_days_ge.
  rewrite <- str_contains_occurs, <- Z.leb_le, <- andb_true_iff.
  destruct (_ && _); unfold follow_up_action; split; split;
    try reflexivity; try discriminate; intuition congruence.
Qed.

(** X3: the label check fires exactly when a label of the issue is named
    ["RFC"], and then returns ["Skip this for now!"] for all the
    maintainers. *)
Theorem check_labels_fires_iff :
  forall (issue : Issue) (maintainers : list string),
    (check_labels issue maintainers = [ skip_action maintainers ] <->
     In "RFC" (map label_name (issue_labels issue))) /\
    (check_labels issue maintainers = [] <->
     ~ In "RFC" (map label_name (issue_labels issue))).
Proof.
  intros issue maintainers. unfold check_labels.
  assert (Hiff : Py.list_truthy
                   (filter (fun l => label_name l =? "RFC") (issue_labels issue))
                 = true
                 <-> In "RFC" (map label_name (issue_labels issue))).
  { rewrite in_map_iff. split.
    - destruct (filter _ _) as [| l ls] eqn:E; [discriminate |]. intros _.
      assert (Hl : In l (filter (fun l => label_name l =? "RFC")
                                (issue_labels issue)))
        by (rewrite E; now left).
      apply filter_In in Hl as [Hl Heq]. apply String.eqb_eq in Heq. eauto.
    - intros [l [Heq Hl]].
      assert (Hin : In l (filter (fun l => label_name l =? "RFC")
                                 (issue_labels issue))).
      { apply filter_In. split; [exact Hl |]. now apply String.eqb_eq. }
      destruct (filter _ _); [destruct Hin | reflexivity]. }
  destruct (Py.list_truthy _); unfold skip_action; split; split;
    try reflexivity; try discriminate; intuition congruence.
Qed.

Lemma mention_candidates_truthy (b : string) :
  Py.str_truthy b = true -> In "" (mention_candidates b).
Proof. destruct b; [discriminate | intros _; now left]. Qed.

Lemma mentioned_iff {A : Type} `{HasBody A} (m : A) (l : string) :
  mentioned m l = true <->
  (exists b, body m = Some b /\ b <> "") /\ l = "".
Proof.
  split.
  - intros Hm. split; [| now apply (mentioned_empty_login m)].
    unfold mentioned in Hm. destruct (body m) as [b |]; [| discriminate].
    exists b. split; [reflexivity |]. now destruct b.
  - intros [[b [Hb Hne]] ->]. unfold mentioned. rewrite Hb.
    destruct b as [| c b]; [contradiction |]. reflexivity.
Qed.

(** X4: the mentions check returns no action exactly when the body is absent
    or empty or no maintainer has the empty account name; an action it
    returns is ["You've been mentioned here!"], and all its targets are the
    empty account name. *)
Theorem check_mentions_fires_iff :
  forall (A : Type) (HB : HasBody A) (m : A) (maintainers : list string),
    (check_mentions m maintainers = [] <->
     ~ ((exists b, body m = Some b /\ b <> "") /\ In "" maintainers)) /\
    (forall a, In a (check_mentions m maintainers) ->
       label a = "You've been mentioned here!" /\
       forall l, In l (targets a) -> l = "").
Proof.
  intros A HB m maintainers. unfold check_mentions. split.
  - rewrite if_truthy_nil, filter_nil_iff. split.
    + intros Hnone [Hb Hin]. specialize (Hnone "" Hin).
      assert (Ht : mentioned m "" = true) by (apply mentioned_iff; auto).
      congruence.
    + intros Hnot l Hl. destruct (mentioned m l) eqn:E; [| reflexivity].
      apply mentioned_iff in E as [Hb ->]. exfalso. auto.
  - intros a Ha. destruct (Py.list_truthy _); [| destruct Ha].
    destruct Ha as [<- | []]. split; [reflexivity |].
    intros l Hl. simpl in Hl. apply filter_In in Hl as [_ Hl].
    now apply (mentioned_empty_login m).
Qed.

Lemma check_close_fires (now : Z) (pr : PullRequest)
    (maintainers : list string) :
  check_close now pr maintainers = [ close_action maintainers ] <->
  (90 * Py.us_per_day <= now - pr_updated_at pr)%Z.
Proof.
  unfold check_close. change (3 * 30)%Z with 90%Z.
  rewrite timedelta_days_ge, <- Z.leb_le.
  destruct (_ <=? _)%Z; unfold close_action; split;
    try reflexivity; discriminate.
Qed.

Lemma check_follow_up_fires (now : Z) (pr : PullRequest)
    (maintainers : list string) :
  check_follow_up now pr maintainers = [ follow_up_action maintainers ] <->
  occurs_in "WIP" (pr_title pr) /\
  (30 * Py.us_per_day <= now - pr_updated_at pr)%Z.
Proof.
  unfold check_follow_up. change (1 * 30)%Z with 30%Z.
  rewrite timedelta_days_ge, <- str_contains_occurs, <- Z.leb_le,
    <- andb_true_iff.
  destruct (_ && _); unfold follow_up_action; split;
    try reflexivity; discriminate.
Qed.

(** X5: the time-based checks are monotone in the clock: on a pull request
    that is not updated, a check that fires at an instant fires at every
    later instant. *)
Theorem time_checks_stay_fired :
  forall (now later : Z) (pr : PullRequest) (maintainers : list string),
    (now <= later)%Z ->
    (check_close now pr maintainers = [ close_action maintainers ] ->
     check_close later pr maintainers = [ close_action maintainers ]) /\
    (check_follow_up now pr maintainers = [ follow_up_action maintainers ] ->
     check_follow_up later pr maintainers = [ follow_up_action maintainers ]).
Proof.
  intros now later pr maintainers Hle. split.
  - rewrite !check_close_fires. lia.
  - rewrite !check_follow_up_fires. intros [Hwip Hage]. split; [exact Hwip | lia].
Qed.

Lemma time_checks_stay_fired_witness :
  (Sample.now <= Sample.now + 1)%Z /\
  check_close (Sample.now + 1) Sample.pr_90_days Sample.maintainers =
    [ close_action Sample.maintainers ].
Proof.
  assert (Hle : (Sample.now <= Sample.now + 1)%Z) by (vm_compute; discriminate).
  split; [exact Hle |].
  exact (proj1 (time_checks_stay_fired Sample.now (Sample.now + 1)
                  Sample.pr_90_days Sample.maintainers Hle) eq_refl).
Defined.

(** X6: a stale pull request whose title holds ["WIP"] gets both actions:
    when the stale check fires on it, so does the follow-up check. *)
Theorem stale_wip_gets_follow_up :
  forall (now : Z) (pr : PullRequest) (maintainers : list string),
    occurs_in "WIP" (pr_title pr) ->
    check_close now pr maintainers = [ close_action maintainers ] ->
    check_follow_up now pr maintainers = [ follow_up_action maintainers ].
Proof.
  intros now pr maintainers Hwip Hclose.
  apply check_close_fires in Hclose. apply check_follow_up_fires.
  split; [exact Hwip |]. unfold Py.us_per_day in *. lia.
Qed.

Lemma stale_wip_gets_follow_up_witness :
  occurs_in "WIP" (pr_title Sample2.stale_wip) /\
  check_close Sample.now Sample2.stale_wip Sample.maintainers =
    [ close_action Sample.maintainers ] /\
  check_follow_up Sample.now Sample2.stale_wip Sample.maintainers =
    [ follow_up_action Sample.maintainers ].
Proof.
  assert (Hwip : occurs_in "WIP" (pr_title Sample2.stale_wip))
    by (exists "[", "] records: new API"; reflexivity).
  split; [exact Hwip |]. split; [reflexivity |].
  exact (stale_wip_gets_follow_up Sample.now Sample2.stale_wip
           Sample.maintainers Hwip eq_refl).
Defined.

(** X7: the stale-comment check depends on the comments of an issue only
    through the last one: two issues whose comment lists end with the same
    comment get the same result. *)
Theorem check_comments_only_last :
  forall (i1 i2 : Issue) (maintainers : list string)
         (e1 e2 : list Comment) (last : Comment),
    issue_comments i1 = e1 ++ [last] ->
    issue_comments i2 = e2 ++ [last] ->
    check_comments i1 maintainers = check_comments i2 maintainers.
Proof.
  intros i1 i2 maintainers e1 e2 last H1 H2.
  now rewrite (check_comments_last i1 maintainers e1 last H1),
              (check_comments_last i2 maintainers e2 last H2).
Qed.

Lemma check_comments_only_last_witness :
  check_comments Sample.issue_carol_last Sample.maintainers =
  check_comments Sample.issue_rfc Sample.maintainers.
Proof.
  exact (check_comments_only_last Sample.issue_carol_last Sample.issue_rfc
           Sample.maintainers
           [ Sample.comment_by Sample.alice (Some "ok") ] []
           (Sample.comment_by Sample.carol (Some "ping")) eq_refl eq_refl).
Defined.

(** ** The reports, level by level *)

Lemma comment_report_mentions (comment : Comment) (maintainers : list string) :
  comment_report comment maintainers = check_mentions comment maintainers.
Proof. reflexivity. Qed.

Lemma check_mentions_nil {A : Type} `{HasBody A} (m : A)
    (maintainers : list string) :
  ~ In "" maintainers -> check_mentions m maintainers = [].
Proof.
  intros Hne. unfold check_mentions. rewrite filter_none; [reflexivity |].
  intros l Hl. destruct (mentioned m l) eqn:E; [| reflexivity].
  apply mentioned_empty_login in E. subst. contradiction.
Qed.

Lemma issue_report_value (issue : Issue) (maintainers : list string) :
  issue_report issue maintainers =
    Py.Ok (let acts :=
             map IssueAction
                 (check_labels issue maintainers
                  ++ returned (check_comments issue maintainers)
                  ++ check_mentions issue maintainers) in
           let comments := comment_entries (issue_comments issue) maintainers in
           if Py.list_truthy comments then acts ++ [ Comments comments ]
           else acts).
Proof.
  unfold issue_report, issue_filters, run_issue_filters.
  destruct (check_comments_returns issue maintainers) as [r [Hr _]].
  simpl. rewrite Hr. simpl. now rewrite !map_app, <- !app_assoc.
Qed.

Lemma issue_entries_select (maintainers : list string) (l : list Issue) :
  forall acc : list IssueEntry,
    issue_entries l maintainers acc =
      Py.Ok (acc ++ map (issue_entry maintainers)
                        (filter (issue_reported maintainers) l)).
Proof.
  induction l as [| issue l IH]; intros acc; simpl.
  - now rewrite app_nil_r.
  - unfold issue_reported at 1.
    destruct (issue_state issue =? "open"); simpl; [| apply IH].
    destruct (issue_report_returns issue maintainers) as [res [Hres _]].
    rewrite Hres. simpl. rewrite IH.
    destruct (Py.list_truthy res); simpl; [| reflexivity].
    unfold issue_entry at 2. rewrite Hres. simpl.
    now rewrite <- app_assoc.
Qed.

Lemma repo_report_value (now : Z) (repo : Repository)
    (maintainers : list string) :
  repo_report now repo maintainers =
    Py.Ok (let prs := map (pr_entry now maintainers)
                          (reported_prs now repo maintainers) in
           let ies := map (issue_entry maintainers)
                          (filter (issue_reported maintainers) (issues repo)) in
           (if Py.list_truthy prs then [ Prs prs ] else [])
           ++ (if Py.list_truthy ies then [ Issues ies ] else [])).
Proof.
  unfold repo_report, reported_prs.
  rewrite issue_entries_select, pr_entries_select. simpl.
  destruct (Py.list_truthy (map (pr_entry now maintainers) _));
    destruct (Py.list_truthy (map (issue_entry maintainers) _)); reflexivity.
Qed.

Lemma filter_filter_and {A : Type} (p q : A -> bool) (l : list A) :
  filter (fun x => p x && q x) (filter p l) = filter (fun x => p x && q x) l.
Proof.
  induction l as [| x l IH]; simpl; [reflexivity |].
  destruct (p x) eqn:E; simpl; [rewrite E; simpl; now rewrite IH | exact IH].
Qed.

(** X8: closed pull requests and issues do not count: the report of a
    repository is the report of the repository without them. *)
Theorem repo_report_open_only :
  forall (now : Z) (repo : Repository) (maintainers : list string),
    repo_report now (open_only repo) maintainers =
    repo_report now repo maintainers.
Proof.
  intros now repo maintainers. rewrite !repo_report_value.
  unfold reported_prs, open_only. simpl.
  rewrite (filter_filter_and (fun pr => pr_state pr =? "open")
             (fun pr => Py.list_truthy (pr_report now pr maintainers))).
  unfold issue_reported.
  rewrite (filter_filter_and (fun i => issue_state i =? "open")
             (fun i => Py.list_truthy (returned (issue_report i maintainers)))).
  reflexivity.
Qed.

(** X9: the issue entries of a repository report are, in order, those of
    the open issues with a non-empty report, each with the actions its
    report returned. *)
Theorem repo_report_issue_entries :
  forall (now : Z) (repo : Repository) (maintainers : list string),
    exists items,
      repo_report now repo maintainers = Py.Ok items /\
      issues_of items =
        map (issue_entry maintainers)
            (filter (issue_reported maintainers) (issues repo)) /\
      forall issue,
        issue_report issue maintainers =
          Py.Ok (ie_actions (issue_entry maintainers issue)).
Proof.
  intros now repo maintainers. rewrite repo_report_value.
  eexists. split; [reflexivity |]. split.
  - simpl.
    destruct (map (pr_entry now maintainers) _);
      destruct (map (issue_entry maintainers) _); simpl;
      rewrite ?app_nil_r; reflexivity.
  - intros issue. unfold issue_entry. simpl.
    destruct (issue_report_returns issue maintainers) as [res [Hres _]].
    now rewrite Hres.
Qed.

(** X10: the stale-comment check is not held back by the label check: on an
    issue labelled ["RFC"] whose last comment is by a non-maintainer, the
    report starts with ["Skip this for now!"] followed by
    ["Follow up on this!"], both for all the maintainers. *)
Theorem rfc_issue_still_followed_up :
  forall (issue : Issue) (maintainers : list string)
         (earlier : list Comment) (last : Comment),
    In "RFC" (map label_name (issue_labels issue)) ->
    issue_comments issue = earlier ++ [last] ->
    ~ In (login (comment_user last)) maintainers ->
    exists rest,
      issue_report issue maintainers =
        Py.Ok (IssueAction (skip_action maintainers)
               :: IssueAction (follow_up_action maintainers) :: rest).
Proof.
  intros issue maintainers earlier last Hrfc Hcs Hlast.
  rewrite issue_report_value.
  rewrite (check_comments_last issue maintainers earlier last Hcs).
  apply str_in_list_not_In in Hlast. rewrite Hlast.
  assert (Hl : check_labels issue maintainers = [ skip_action maintainers ]).
  { unfold check_labels. apply in_map_iff in Hrfc as [l [Heq Hl]].
    assert (Hin : In l (filter (fun l => label_name l =? "RFC")
                               (issue_labels issue))).
    { apply filter_In. split; [exact Hl |]. now apply String.eqb_eq. }
    destruct (filter _ _); [destruct Hin | reflexivity]. }
  rewrite Hl. simpl.
  destruct (Py.list_truthy (comment_entries _ _)); simpl; eauto.
Qed.

Lemma rfc_issue_still_followed_up_witness :
  In "RFC" (map label_name (issue_labels Sample.issue_rfc)) /\
  ~ In "carol" Sample.maintainers /\
  exists rest,
    issue_report Sample.issue_rfc Sample.maintainers =
      Py.Ok (IssueAction (skip_action Sample.maintainers)
             :: IssueAction (follow_up_action Sample.maintainers) :: rest).
Proof.
  assert (Hrfc : In "RFC" (map label_name (issue_labels Sample.issue_rfc)))
    by (left; reflexivity).
  assert (Hc : ~ In "carol" Sample.maintainers).
  { simpl. intros [H | [H | H]]; [discriminate H | discriminate H | exact H]. }
  split; [exact Hrfc |]. split; [exact Hc |].
  exact (rfc_issue_still_followed_up Sample.issue_rfc Sample.maintainers []
           (Sample.comment_by Sample.carol (Some "ping")) Hrfc eq_refl Hc).
Defined.

(** ** Targets, containers and sizes *)

Lemma pr_filters_within (now : Z) (pr : PullRequest)
    (maintainers : list string) :
  forall f, In f (pr_filters now) ->
            zero_or_one_within maintainers (f pr maintainers).
Proof.
  intros f Hf. unfold pr_filters in Hf. simpl in Hf.
  repeat (destruct Hf as [<- | Hf]); [ .. | destruct Hf].
  - unfold check_mergeable. destruct (pr_mergeable pr) as [[|] |];
      auto with checks.
  - unfold check_review. auto with checks.
  - unfold check_if_connected_with_issue. destruct (pr_issue pr);
      auto with checks.
  - unfold check_mentions. auto with checks.
  - unfold check_close. auto with checks.
  - unfold check_follow_up. auto with checks.
Qed.

Lemma issue_checks_within (issue : Issue) (maintainers : list string) :
  zero_or_one_within maintainers (check_labels issue maintainers) /\
  zero_or_one_within maintainers (returned (check_comments issue maintainers)) /\
  zero_or_one_within maintainers (check_mentions issue maintainers).
Proof.
  split; [| split].
  - unfold check_labels. auto with checks.
  - destruct (check_comments_returns issue maintainers)
      as [res [Hres [-> | ->]]]; rewrite Hres; simpl;
      unfold follow_up_action; auto with checks.
  - unfold check_mentions. auto with checks.
Qed.

Lemma comment_actions_within (comments : list Comment)
    (maintainers : list string) (a : ActionReport) :
  In a (comment_actions (comment_entries comments maintainers)) ->
  incl (targets a) maintainers.
Proof.
  unfold comment_actions. rewrite comment_entries_select, in_flat_map.
  intros [e [He Ha]]. apply in_map_iff in He as [c [<- _]].
  simpl in Ha. rewrite comment_report_mentions in Ha.
  revert a Ha. unfold check_mentions.
  destruct (Py.list_truthy _); intros a Ha; [| destruct Ha].
  destruct Ha as [<- | []]. apply incl_filter.
Qed.

Lemma in_if_app {A : Type} (c : bool) (l : list A) (x y : A) :
  In y (if c then l ++ [ x ] else l) -> In y l \/ (c = true /\ y = x).
Proof.
  destruct c; [| now left].
  rewrite in_app_iff. intros [H | [<- | []]]; auto.
Qed.

Lemma pr_report_within (now : Z) (pr : PullRequest)
    (maintainers : list string) (a : ActionReport) :
  In a (flat_map pr_item_actions (pr_report now pr maintainers)) ->
  incl (targets a) maintainers.
Proof.
  rewrite in_flat_map. intros [it [Hit Ha]].
  unfold pr_report in Hit. rewrite pr_report_actions in Hit.
  apply in_if_app in Hit as [Hit | [_ ->]];
    [| now apply comment_actions_within in Ha].
  apply in_if_app in Hit as [Hit | [_ ->]];
    [| now apply comment_actions_within in Ha].
  apply in_map_iff in Hit as [b [<- Hb]]. destruct Ha as [<- | []].
  apply in_flat_map in Hb as [f [Hf Hb]].
  exact (proj2 (pr_filters_within now pr maintainers f Hf) b Hb).
Qed.

Lemma issue_report_within (issue : Issue) (maintainers : list string)
    (a : ActionReport) :
  In a (flat_map issue_item_actions (returned (issue_report issue maintainers)))
  -> incl (targets a) maintainers.
Proof.
  rewrite issue_report_value, in_flat_map. simpl. intros [it [Hit Ha]].
  apply in_if_app in Hit as [Hit | [_ ->]];
    [| now apply comment_actions_within in Ha].
  apply in_map_iff in Hit as [b [<- Hb]]. destruct Ha as [<- | []].
  destruct (issue_checks_within issue maintainers) as [Hl [Hc Hm]].
  rewrite !in_app_iff in Hb. destruct Hb as [Hb | [Hb | Hb]].
  - exact (proj2 Hl b Hb).
  - exact (proj2 Hc b Hb).
  - exact (proj2 Hm b Hb).
Qed.

(** X11: in the report of a repository, the targets of every action, of the
    pull requests, of the issues and of their comments, are among the
    maintainers given for that repository. *)
Theorem repo_report_targets_within :
  forall (now : Z) (repo : Repository) (maintainers : list string),
    exists items,
      repo_report now repo maintainers = Py.Ok items /\
      forall a, In a (flat_map repo_item_actions items) ->
                incl (targets a) maintainers.
Proof.
  intros now repo maintainers. rewrite repo_report_value.
  eexists. split; [reflexivity |].
  intros a Ha. apply in_flat_map in Ha as [it [Hit Ha]].
  simpl in Hit. apply in_app_iff in Hit as [Hit | Hit].
  - destruct (Py.list_truthy _); [| destruct Hit].
    destruct Hit as [<- | []]. simpl in Ha.
    apply in_flat_map in Ha as [e [He Ha]].
    apply in_map_iff in He as [pr [<- _]].
    now apply pr_report_within in Ha.
  - destruct (Py.list_truthy _); [| destruct Hit].
    destruct Hit as [<- | []]. simpl in Ha.
    apply in_flat_map in Ha as [e [He Ha]].
    apply in_map_iff in He as [issue [<- _]].
    now apply issue_report_within in Ha.
Qed.

(** X12: when no maintainer's account name is the empty string, no comment
    ever gets an entry: the report of a pull request and the report of an
    issue hold actions only, without a container of comments. *)
Theorem no_comment_entries_without_empty_login :
  forall maintainers : list string,
    ~ In "" maintainers ->
    (forall comments, comment_entries comments maintainers = []) /\
    (forall now pr,
       pr_report now pr maintainers =
         map PrAction
             (flat_map (fun f => f pr maintainers) (pr_filters now))) /\
    (forall issue,
       issue_report issue maintainers =
         Py.Ok (map IssueAction
                    (check_labels issue maintainers
                     ++ returned (check_comments issue maintainers)))).
Proof.
  intros maintainers Hne.
  assert (Hce : forall comments, comment_entries comments maintainers = []).
  { intros comments. rewrite comment_entries_select, filter_none; [reflexivity |].
    intros c _. rewrite comment_report_mentions.
    now rewrite (check_mentions_nil c maintainers Hne). }
  split; [exact Hce |]. split.
  - intros now pr. unfold pr_report.
    now rewrite pr_report_actions, !Hce.
  - intros issue. rewrite issue_report_value, Hce.
    rewrite (check_mentions_nil issue maintainers Hne). simpl.
    now rewrite app_nil_r.
Qed.

Lemma no_comment_entries_without_empty_login_witness :
  ~ In "" Sample.maintainers /\
  comment_entries [ Sample.mention_of_alice ] Sample.maintainers = [].
Proof.
  assert (Hne : ~ In "" Sample.maintainers).
  { simpl. intros [H | [H | H]]; [discriminate H | discriminate H | exact H]. }
  split; [exact Hne |].
  exact (proj1 (no_comment_entries_without_empty_login Sample.maintainers Hne)
           [ Sample.mention_of_alice ]).
Defined.

Lemma report_repos_select (now : Z) (repos : list (string * list string)) :
  forall (acc : list RepoEntry) (self : GitHubAPI),
    exists self',
      report_repos now repos acc self =
        (Py.Ok (acc ++ map (repo_entry now self)
                           (filter (repo_reported now self) repos)),
         self').
Proof.
  induction repos as [| [repo maintainers] rest IH]; intros acc self; simpl.
  - exists self. now rewrite app_nil_r.
  - set (self1 := {| OWNER := OWNER self;
                      GH_CLIENT :=
                        {| remote := remote (GH_CLIENT self);
                           requests := requests (GH_CLIENT self)
                                         ++ [ (OWNER self, repo) ] |} |}).
    assert (He : repo_entry now self1 = repo_entry now self) by reflexivity.
    assert (Hp : repo_reported now self1 = repo_reported now self)
      by reflexivity.
    assert (Hr : repo_reported now self (repo, maintainers) =
                 Py.list_truthy
                   (returned (repo_report now
                                (remote (GH_CLIENT self) (OWNER self) repo)
                                maintainers))) by reflexivity.
    assert (Hn : repo_entry now self (repo, maintainers) =
                 {| re_actions :=
                      returned (repo_report now
                                  (remote (GH_CLIENT self) (OWNER self) repo)
                                  maintainers);
                    re_info :=
                      fetch_repo_info
                        (remote (GH_CLIENT self) (OWNER self) repo) |})
      by reflexivity.
    rewrite Hr.
    destruct (repo_report_returns now
                (remote (GH_CLIENT self) (OWNER self) repo) maintainers)
      as [items [Hitems _]].
    rewrite Hitems in *. simpl returned in *.
    match goal with
    | |- context [report_repos now rest ?a self1] =>
        destruct (IH a self1) as [self' Hrun]
    end.
    exists self'. rewrite Hrun, He, Hp.
    destruct (Py.list_truthy items); [| reflexivity].
    simpl map. rewrite Hn. now rewrite <- app_assoc.
Qed.

(** X13: the top-level report holds, in the order of the dictionary, one
    entry for every repository whose report is not empty, under the single
    key ["repos"]; when no repository has one, the report is the empty
    list. *)
Theorem report_body_entries :
  forall (repos : list (string * list string)) (now : Z) (self : GitHubAPI),
    exists self',
      report_body repos now self =
        (Py.Ok (let entries := map (repo_entry now self)
                                   (filter (repo_reported now self) repos) in
                if Py.list_truthy entries then [ Repos entries ] else []),
         self').
Proof.
  intros repos now self. unfold report_body.
  destruct (report_repos_select now repos [] self) as [self' Hrun].
  rewrite Hrun. now exists self'.
Qed.

Lemma length_flat_map_le {A B : Type} (g : A -> list B) (l : list A) :
  (forall x, In x l -> List.length (g x) <= 1)%nat ->
  (List.length (flat_map g l) <= List.length l)%nat.
Proof.
  induction l as [| x l IH]; intros Hg; simpl; [lia |].
  rewrite length_app.
  pose proof (Hg x (or_introl eq_refl)).
  assert (List.length (flat_map g l) <= List.length l)%nat
    by (apply IH; intros y Hy; apply Hg; now right).
  lia.
Qed.

Lemma length_if_app {A : Type} (c : bool) (l : list A) (x : A) :
  (List.length (if c then l ++ [ x ] else l) <= S (List.length l))%nat.
Proof. destruct c; [rewrite length_app; simpl |]; lia. Qed.

(** X14: the reports are small at every level: a pull request has at most
    six actions and two containers of comments, an issue at most three
    actions and one container, a repository at most the two groups of pull
    requests and of issues, and the top level at most the one group of
    repositories. *)
Theorem report_sizes :
  (forall now pr maintainers,
     (List.length (pr_report now pr maintainers) <= 8)%nat) /\
  (forall issue maintainers,
     exists res, issue_report issue maintainers = Py.Ok res /\
                 (List.length res <= 4)%nat) /\
  (forall now repo maintainers,
     exists items, repo_report now repo maintainers = Py.Ok items /\
                   (List.length items <= 2)%nat) /\
  (forall repos now self,
     exists out self', report_body repos now self = (Py.Ok out, self') /\
                       (List.length out <= 1)%nat).
Proof.
  split; [| split; [| split]].
  - intros now pr maintainers. unfold pr_report. rewrite pr_report_actions.
    match goal with
    | |- (List.length (if ?c then ?l ++ [ ?x ] else ?l) <= _)%nat =>
        pose proof (length_if_app c l x) as H2
    end.
    match type of H2 with
    | (_ <= S (List.length (if ?c then ?l ++ [ ?x ] else ?l)))%nat =>
        pose proof (length_if_app c l x) as H1
    end.
    rewrite length_map in H1.
    pose proof (length_flat_map_le (fun f => f pr maintainers) (pr_filters now)
                  (fun f Hf => proj1 (pr_filters_within now pr maintainers f Hf)))
      as H0.
    change (List.length (pr_filters now)) with 6%nat in H0. lia.
  - intros issue maintainers. rewrite issue_report_value. eexists.
    split; [reflexivity |]. simpl.
    match goal with
    | |- (List.length (if ?c then ?l ++ [ ?x ] else ?l) <= _)%nat =>
        pose proof (length_if_app c l x) as H1
    end.
    rewrite length_map, !length_app in H1.
    destruct (issue_checks_within issue maintainers) as [[Hl _] [[Hc _] [Hm _]]].
    lia.
  - intros now repo maintainers. rewrite repo_report_value. eexists.
    split; [reflexivity |]. simpl. rewrite length_app.
    destruct (Py.list_truthy _); destruct (Py.list_truthy _); simpl; lia.
  - intros repos now self.
    unfold report_body.
    destruct (report_repos_select now repos [] self) as [self' Hrun].
    rewrite Hrun. eexists. exists self'. split; [reflexivity |]. simpl.
    destruct (Py.list_truthy _); simpl; lia.
Qed.

(** X15: nothing that calls for an action is dropped: an open pull request
    of the repository on which one of the checks fires has its entry in the
    repository report. *)
Theorem fired_pr_is_reported :
  forall (now : Z) (repo : Repository) (maintainers : list string)
         (pr : PullRequest)
         (f : PullRequest -> list string -> list ActionReport),
    In pr (pull_requests repo) ->
    pr_state pr = "open" ->
    In f (pr_filters now) ->
    f pr maintainers <> [] ->
    exists items,
      repo_report now repo maintainers = Py.Ok items /\
      In (pr_entry now maintainers pr) (prs_of items).
Proof.
  intros now repo maintainers pr f Hpr Hopen Hf Hfired.
  destruct (repo_report_returns now repo maintainers)
    as [items [Hitems [_ Hprs]]].
  exists items. split; [exact Hitems |].
  rewrite Hprs. apply in_map. unfold reported_prs.
  apply filter_In. split; [exact Hpr |].
  rewrite Hopen, pr_report_truthy. simpl String.eqb.
  apply andb_true_iff. split; [reflexivity |].
  apply orb_true_iff. left. apply existsb_exists.
  exists f. split; [exact Hf |]. now destruct (f pr maintainers).
Qed.

Lemma fired_pr_is_reported_witness :
  In Sample2.stale_wip (pull_requests Sample2.r2) /\
  exists items,
    repo_report Sample.now Sample2.r2 Sample.maintainers = Py.Ok items /\
    In (pr_entry Sample.now Sample.maintainers Sample2.stale_wip)
       (prs_of items).
Proof.
  assert (Hin : In Sample2.stale_wip (pull_requests Sample2.r2))
    by (right; left; reflexivity).
  split; [exact Hin |].
  refine (fired_pr_is_reported Sample.now Sample2.r2 Sample.maintainers
            Sample2.stale_wip (check_close Sample.now) Hin eq_refl _ _).
  - unfold pr_filters. do 4 right. left. reflexivity.
  - vm_compute. discriminate.
Defined.

(** ** The report and the clock *)

(** The report is evaluated at the instant of its use: on the same remote
    state, a report used one microsecond later can differ. *)
Example report_depends_on_instant :
  returned (fst (report_body Sample3.repos Sample.now Sample3.api)) = [] /\
  Py.list_truthy
    (returned (fst (report_body Sample3.repos (Sample.now + 1) Sample3.api)))
  = true.
Proof. split; vm_compute; reflexivity. Qed.
